(** * LightRAG-Cruise: the description parser and the ingestion glue

    A shallow embedding of [helpers/parser.py] ([parse_description]) and of
    the parts of [lightrag/CruiseRag.py] that the specification talks about
    ([ingest_cruise] and the facet filter of [search]).

    Conventions of the embedding.
    - A Python [str] is a [string]; a character is a code point below 256.
    - A Python [dict] with string keys is a [gmap string _].
    - Code that can raise returns a [result]: [Ok v] or [Raise e].
    - A Python [float] is carried by the exact value of the literal it was
      read from ([FNum q]); the rounding to binary64 is not part of the
      model. *)

From Stdlib Require Import ZArith QArith Ascii String.
From stdpp Require Import base numbers option list gmap strings pretty.

Local Open Scope Z_scope.

(** ** Exceptions *)

Inductive exn : Type :=
  | ValueError
  | KeyError (msg : string)
  | TypeError
  | AttributeError
  | IndexError.

Inductive result (A : Type) : Type :=
  | Ok (a : A)
  | Raise (e : exn).
Arguments Ok {A} a.
Arguments Raise {A} e.

Definition bind {A B : Type} (r : result A) (k : A -> result B) : result B :=
  match r with
  | Ok a => k a
  | Raise e => Raise e
  end.

Notation "'let*' x ':=' r 'in' k" := (bind r (fun x => k))
  (at level 10, x name, r at level 100, k at level 200).
Notation "'let*' ' p ':=' r 'in' k" :=
  (bind r (fun x => match x with p => k end))
  (at level 10, p pattern, r at level 100, k at level 200).

(** [try: body except ValueError: handler]. *)
Definition try_except_ValueError {A : Type} (body handler : result A) : result A :=
  match body with
  | Raise ValueError => handler
  | other => other
  end.

(** ** Strings *)

Module Str.

Definition NL : string := String "010" "".

Definition code (c : ascii) : N := N_of_ascii c.

(** [str.isspace] on one character: TAB..CR, FS..US, SPACE, NEL, NBSP. *)
Definition isspace (c : ascii) : bool :=
  let n := code c in
  ((9 <=? n) && (n <=? 13) || (28 <=? n) && (n <=? 32)
   || (n =? 133) || (n =? 160))%N.

Fixpoint lstrip (s : string) : string :=
  match s with
  | "" => ""
  | String c s' => if isspace c then lstrip s' else s
  end.

Fixpoint rstrip (s : string) : string :=
  match s with
  | "" => ""
  | String c s' =>
      match rstrip s' with
      | "" => if isspace c then "" else String c ""
      | r => String c r
      end
  end.

(** [s.strip()] *)
Definition strip (s : string) : string := lstrip (rstrip s).

Fixpoint drop (n : nat) (s : string) : string :=
  match n, s with
  | O, _ => s
  | S n', String _ s' => drop n' s'
  | S _, "" => ""
  end.

(** [sub in s] *)
Fixpoint contains (sub s : string) : bool :=
  String.prefix sub s
  || match s with
     | "" => false
     | String _ s' => contains sub s'
     end.

(** [s.partition(sep)] when [sep] occurs in [s]: the text before and after
    the first occurrence. *)
Fixpoint cut (sep s : string) : option (string * string) :=
  if String.prefix sep s then Some ("", drop (String.length sep) s)
  else match s with
       | "" => None
       | String c s' =>
           match cut sep s' with
           | Some (a, b) => Some (String c a, b)
           | None => None
           end
       end.

(** [s.split(sep, n)] for a non-empty [sep]: at most [n] splits, left to
    right. *)
Fixpoint splitn (n : nat) (sep s : string) : list string :=
  match n with
  | O => [s]
  | S n' =>
      match cut sep s with
      | None => [s]
      | Some (a, b) => a :: splitn n' sep b
      end
  end.

(** [s.split(sep)]: no more than [len(s)] splits can ever happen. *)
Definition split (sep s : string) : list string :=
  splitn (String.length s) sep s.

(** [sep.join(l)] *)
Fixpoint join (sep : string) (l : list string) : string :=
  match l with
  | [] => ""
  | [x] => x
  | x :: l' => x +:+ sep +:+ join sep l'
  end.

(** [str.lower] on one character: A-Z and the Latin-1 capitals. *)
Definition lower_char (c : ascii) : ascii :=
  let n := code c in
  if ((65 <=? n) && (n <=? 90)
      || (192 <=? n) && (n <=? 222) && negb (n =? 215))%N
  then ascii_of_N (n + 32)
  else c.

Fixpoint lower (s : string) : string :=
  match s with
  | "" => ""
  | String c s' => String (lower_char c) (lower s')
  end.

End Str.

(** ** Numbers read from text *)

Inductive pyfloat : Type :=
  | FNum (q : Q)
  | FInf (negative : bool)
  | FNan.

Module Num.

Definition digit_of (c : ascii) : option Z :=
  let n := Str.code c in
  if ((48 <=? n) && (n <=? 57))%N then Some (Z.of_N n - 48) else None.

Definition is_digit (c : ascii) : bool :=
  match digit_of c with Some _ => true | None => false end.

(** Whitespace that [int] and [float] skip around a literal: the ASCII
    [isspace] set, plus NEL and NBSP which are first turned into a
    space. *)
Definition isspace (c : ascii) : bool :=
  let n := Str.code c in
  ((9 <=? n) && (n <=? 13) || (n =? 32) || (n =? 133) || (n =? 160))%N.

Fixpoint lskip (s : string) : string :=
  match s with
  | "" => ""
  | String c s' => if isspace c then lskip s' else s
  end.

Fixpoint rskip (s : string) : string :=
  match s with
  | "" => ""
  | String c s' =>
      match rskip s' with
      | "" => if isspace c then "" else String c ""
      | r => String c r
      end
  end.

Definition skip (s : string) : string := lskip (rskip s).

(** An optional sign. *)
Definition sign (s : string) : bool * string :=
  match s with
  | String "+" s' => (false, s')
  | String "-" s' => (true, s')
  | _ => (false, s)
  end.

(** Digits with single underscores between them; the value and the number
    of digits read. *)
Fixpoint digits (acc : Z) (count : nat) (after_digit : bool) (s : string)
  : option (Z * nat) :=
  match s with
  | "" => if after_digit then Some (acc, count) else None
  | String c s' =>
      match digit_of c with
      | Some d => digits (10 * acc + d) (S count) true s'
      | None =>
          if Ascii.eqb c "_" && after_digit
          then digits acc count false s'
          else None
      end
  end.

(** The default of [sys.get_int_max_str_digits()]. *)
Definition int_max_str_digits : nat := 4300.

(** [int(s)] *)
Definition py_int (s : string) : result Z :=
  let '(neg, body) := sign (skip s) in
  match digits 0 0 false body with
  | Some (n, count) =>
      if (int_max_str_digits <? count)%nat then Raise ValueError
      else Ok (if neg then - n else n)
  | None => Raise ValueError
  end.

(** Underscores in a [float] literal: only between two digits; they are
    removed before the literal is read. *)
Fixpoint strip_underscores (prev : option ascii) (s : string) : option string :=
  match s with
  | "" => if bool_decide (prev = Some "_"%char) then None else Some ""
  | String c s' =>
      if Ascii.eqb c "_" then
        match prev with
        | Some p => if is_digit p then strip_underscores (Some c) s' else None
        | None => None
        end
      else if bool_decide (prev = Some "_"%char) && negb (is_digit c) then None
      else option_map (String c) (strip_underscores (Some c) s')
  end.

(** A maximal run of digits: value, length, rest. *)
Fixpoint digit_run (acc : Z) (count : nat) (s : string) : Z * nat * string :=
  match s with
  | String c s' =>
      match digit_of c with
      | Some d => digit_run (10 * acc + d) (S count) s'
      | None => (acc, count, s)
      end
  | "" => (acc, count, s)
  end.

(** The exponent part: nothing, or [e]/[E], an optional sign and at least
    one digit, up to the end of the text. *)
Definition exponent (s : string) : option Z :=
  match s with
  | "" => Some 0
  | String c s' =>
      if Ascii.eqb c "e" || Ascii.eqb c "E" then
        let '(neg, body) := sign s' in
        match digit_run 0 0 body with
        | (_, O, _) => None
        | (e, S _, "") => Some (if neg then - e else e)
        | (_, S _, String _ _) => None
        end
      else None
  end.

(** [sign digits [. digits] [exponent]] or [sign . digits [exponent]]. *)
Definition decimal (s : string) : option Q :=
  let '(neg, body) := sign s in
  let '(i, ni, rest) := digit_run 0 0 body in
  let '(m, nf, rest) :=
    match rest with
    | String "." rest' => digit_run i 0 rest'
    | _ => (i, O, rest)
    end in
  if (ni + nf =? 0)%nat then None
  else
    match exponent rest with
    | Some e =>
        let q := (inject_Z m * Qpower (10 # 1) (e - Z.of_nat nf))%Q in
        Some (Qred (if neg then - q else q)%Q)
    | None => None
    end.

(** [inf], [infinity] and [nan], with a sign, in any case. *)
Definition inf_or_nan (s : string) : option pyfloat :=
  let '(neg, body) := sign s in
  let w := Str.lower body in
  if bool_decide (w = "inf" \/ w = "infinity") then Some (FInf neg)
  else if bool_decide (w = "nan") then Some FNan
  else None.

(** [float(s)] *)
Definition py_float (s : string) : result pyfloat :=
  match strip_underscores None (skip s) with
  | None => Raise ValueError
  | Some t =>
      match decimal t with
      | Some q => Ok (FNum q)
      | None =>
          match inf_or_nan t with
          | Some f => Ok f
          | None => Raise ValueError
          end
      end
  end.

End Num.

(** ** The description parser ([helpers/parser.py]) *)

(** The values of the returned dictionary, as the annotation of
    [parse_description] lists them. *)
Inductive value : Type :=
  | VStr (s : string)
  | VBool (b : bool)
  | VInt (z : Z)
  | VFloat (f : pyfloat)
  | VList (l : list string).

Definition multiline_keys : gset string :=
  list_to_set
    [ "Description"; "Unique Features"; "Reasons To Book"; "Loyalty Program";
      "Ships In Fleet"; "Accommodation Overview"; "Cabin Types"; "Deck Plans";
      "Dining Venues"; "Entertainment & Activities"; "Health & Fitness";
      "Accessibility & Special Needs"; "Itinerary Details"; "Available Fares" ].

(** The two locals of the loop: [data] and [current_key]. *)
Record pstate : Type := PState {
  data : gmap string value;
  current_key : option string
}.

(** [key, value = parts] *)
Definition unpack2 (parts : list string) : result (string * string) :=
  match parts with
  | [a; b] => Ok (a, b)
  | _ => Raise ValueError
  end.

(** The body of the [try]: [float(value)] or [int(value)]. *)
Definition convert (v : string) : result value :=
  if Str.contains "." v
  then let* f := Num.py_float v in Ok (VFloat f)
  else let* z := Num.py_int v in Ok (VInt z).

(** What a header line outside [multiline_keys] stores. *)
Definition typed (v : string) : result value :=
  if bool_decide (Str.lower v = "true") then Ok (VBool true)
  else if bool_decide (Str.lower v = "false") then Ok (VBool false)
  else try_except_ValueError (convert v) (Ok (VStr v)).

(** [isinstance(x, str)] *)
Definition is_str (x : option value) : bool :=
  match x with
  | Some (VStr _) => true
  | _ => false
  end.

(** [if current_key] *)
Definition truthy_key (k : option string) : bool :=
  match k with
  | Some (String _ _) => true
  | _ => false
  end.

(** [data[k] += ' ' + text] *)
Definition append_to (d : gmap string value) (k : string) (text : string)
  : result (gmap string value) :=
  match d !! k with
  | None => Raise (KeyError k)
  | Some (VStr s) => Ok (<[k := VStr (s +:+ " " +:+ text)]> d)
  | Some _ => Raise TypeError
  end.

(** One iteration of the [for] loop. *)
Definition process_line (st : pstate) (raw : string) : result pstate :=
  let line := Str.strip raw in
  if bool_decide (line = "") then Ok st
  else if Str.contains ": " line then
    let* '(key, val) := unpack2 (Str.splitn 1 ": " line) in
    let key := Str.strip key in
    let val := Str.strip val in
    if bool_decide (key ∈ multiline_keys) then
      Ok (PState (<[key := VStr val]> (data st)) (Some key))
    else
      let* x := typed val in
      Ok (PState (<[key := x]> (data st)) (current_key st))
  else
    match current_key st with
    | Some k =>
        if truthy_key (current_key st) && is_str (data st !! k) then
          let* d := append_to (data st) k (Str.strip line) in
          Ok (PState d (current_key st))
        else Ok st
    | None => Ok st
    end.

Fixpoint run (st : pstate) (lines : list string) : result pstate :=
  match lines with
  | [] => Ok st
  | l :: ls => let* st' := process_line st l in run st' ls
  end.

Definition initial : pstate := PState ∅ None.

Definition parse_description (description : string) : result (gmap string value) :=
  let* st := run initial (Str.split Str.NL (Str.strip description)) in
  Ok (data st).

(** ** JSON-like values: what the ingestion functions receive *)

(** The result of [json.loads]; a dictionary keeps its keys in insertion
    order (a key occurs once, lookup takes the first entry). *)
#[warnings="-register-all"]
Inductive pyval : Type :=
  | PNone
  | PBool (b : bool)
  | PInt (z : Z)
  | PFloat (f : pyfloat)
  | PStr (s : string)
  | PList (l : list pyval)
  | PDict (d : list (string * pyval)).

Module Py.

Fixpoint lookup (d : list (string * pyval)) (k : string) : option pyval :=
  match d with
  | [] => None
  | (k', v) :: d' => if bool_decide (k' = k) then Some v else lookup d' k
  end.

(** [bool(v)] *)
Definition truthy (v : pyval) : bool :=
  match v with
  | PNone => false
  | PBool b => b
  | PInt z => negb (z =? 0)
  | PFloat (FNum q) => negb (Qeq_bool q 0)
  | PFloat _ => true
  | PStr s => negb (bool_decide (s = ""))
  | PList l => negb (bool_decide (l = []))
  | PDict d => negb (bool_decide (d = []))
  end.

(** [v[k]] with a string key *)
Definition getitem (v : pyval) (k : string) : result pyval :=
  match v with
  | PDict d =>
      match lookup d k with
      | Some x => Ok x
      | None => Raise (KeyError k)
      end
  | _ => Raise TypeError
  end.

(** [v.get(k, default)] *)
Definition get (v : pyval) (k : string) (default : pyval) : result pyval :=
  match v with
  | PDict d => Ok (from_option id default (lookup d k))
  | _ => Raise AttributeError
  end.

Fixpoint chars (s : string) : list pyval :=
  match s with
  | "" => []
  | String c s' => PStr (String c "") :: chars s'
  end.

(** [for x in v] *)
Definition iter (v : pyval) : result (list pyval) :=
  match v with
  | PList l => Ok l
  | PDict d => Ok (map (fun kv => PStr kv.1) d)
  | PStr s => Ok (chars s)
  | _ => Raise TypeError
  end.

Fixpoint all_str (l : list pyval) : result (list string) :=
  match l with
  | [] => Ok []
  | PStr s :: l' => let* r := all_str l' in Ok (s :: r)
  | _ :: _ => Raise TypeError
  end.

(** [sep.join(v)] *)
Definition join (sep : string) (v : pyval) : result string :=
  let* items := iter v in
  let* texts := all_str items in
  Ok (Str.join sep texts).

(** [isinstance(v, (str, int, float))]; a [bool] is an [int]. *)
Definition is_str_int_float (v : pyval) : bool :=
  match v with
  | PStr _ | PInt _ | PFloat _ | PBool _ => true
  | _ => false
  end.

(** [[f(x) for x in l]], stopping at the first exception. *)
Fixpoint for_each {A B : Type} (f : A -> result B) (l : list A) : result (list B) :=
  match l with
  | [] => Ok []
  | x :: l' => let* y := f x in let* ys := for_each f l' in Ok (y :: ys)
  end.

End Py.

(** ** The cruise ingestion ([lightrag/CruiseRag.py]) *)

(** [n] spaces of indentation. *)
Fixpoint spaces (n : nat) : string :=
  match n with
  | O => ""
  | S n' => String " " (spaces n')
  end.

(** The text of a triple-quoted literal is its source lines joined by
    newlines: the first one is empty, the last one is the indentation in
    front of the closing quotes. *)
Definition text (rows : list string) : string := Str.join Str.NL rows.

(** The lines of such a literal: an empty line, a line of text, or a line
    [Label: value]; the last two are indented. *)
Inductive row : Type :=
  | Blank
  | Line (s : string)
  | Field (label value : string).

Definition render (n : nat) (r : row) : string :=
  match r with
  | Blank => ""
  | Line s => spaces n +:+ s
  | Field label value => spaces n +:+ label +:+ ": " +:+ value
  end.

Definition literal (n : nat) (rows : list row) : string :=
  text (map (render n) rows).

Definition required_keys : list string :=
  [ "name"; "ref"; "cruise_nights"; "cruise_type"; "regions";
    "starts_at"; "starts_on"; "ends_at"; "ends_on";
    "ship_title"; "operator_title"; "fare_sets" ].

(** [str(missing_keys)] for keys without quotes, backslashes or control
    characters, as those of [required_keys]. *)
Definition repr_keys (keys : list string) : string :=
  "[" +:+ Str.join ", " (map (fun k => "'" +:+ k +:+ "'") keys) +:+ "]".

(** The external retrieval service, seen through [insert]: the texts it was
    handed, oldest first. *)
Definition rag_store : Type := list string.

Definition rag_insert (description : string) (rag : rag_store) : rag_store :=
  rag ++ [description].

Section Ingestion.

(** [html.unescape] on text, and [str] on the values whose text form is not
    modelled (floats, lists, dictionaries): both are outside this
    repository. *)
Variable html_unescape : string -> string.
Variable py_repr : pyval -> string.

(** [f"{v}"] *)
Definition fmt (v : pyval) : string :=
  match v with
  | PStr s => s
  | PInt z => pretty z
  | PBool true => "True"
  | PBool false => "False"
  | PNone => "None"
  | PFloat _ | PList _ | PDict _ => py_repr v
  end.

Definition is_amp (v : pyval) : bool :=
  match v with
  | PStr s => bool_decide (s = "&")
  | _ => false
  end.

(** [html.unescape(v)]: [if '&' not in v: return v], else a substitution
    that needs text. *)
Definition unescape (v : pyval) : result pyval :=
  match v with
  | PStr s => Ok (PStr (html_unescape s))
  | PList l => if existsb is_amp l then Raise TypeError else Ok v
  | PDict d => if existsb (fun kv => bool_decide (kv.1 = "&")) d
               then Raise TypeError else Ok v
  | _ => Raise TypeError
  end.

(** [_safe_get(data, key)] with its default [''] *)
Definition _safe_get (data : pyval) (key : string) : result pyval :=
  let* value := Py.get data key (PStr "") in
  Ok (if Py.is_str_int_float value then value else PStr "").

(** One stop of [_format_detailed_itinerary]. *)
Definition format_stop (stop : pyval) : result string :=
  let* port := Py.get stop "port" (PDict []) in
  let* summary := _safe_get port "summary" in
  let* day := _safe_get stop "day" in
  let* name := _safe_get port "name" in
  let* country := _safe_get port "country" in
  let* unlocode := _safe_get port "unlocode" in
  let* latitude := _safe_get port "latitude" in
  let* longitude := _safe_get port "longitude" in
  let* arrives_on := _safe_get stop "arrives_on" in
  let* departs_on := _safe_get stop "departs_on" in
  let* about := unescape summary in
  let* programme := _safe_get stop "programme" in
  let* notes := _safe_get stop "notes" in
  Ok (literal 12
    [ Blank;
      Line ("Day " +:+ fmt day +:+ ": " +:+ fmt name +:+ ", " +:+ fmt country);
      Field "Port Code" (fmt unlocode);
      Field "Location" (fmt latitude +:+ ", " +:+ fmt longitude);
      Field "Arrival" (fmt arrives_on);
      Field "Departure" (fmt departs_on);
      Field "About" (fmt about);
      Field "Programme" (fmt programme);
      Field "Notes" (fmt notes);
      Line "" ]).

Definition _format_detailed_itinerary (itinerary : pyval) : result string :=
  if negb (Py.truthy itinerary) then Ok "No itinerary details available."
  else
    let* stops := Py.iter itinerary in
    let* formatted := Py.for_each format_stop stops in
    Ok (Str.join Str.NL formatted).

(** One fare of [_format_fares]; a fare without a price adds nothing. *)
Definition format_fare (fare : pyval) : result (list string) :=
  let* price := Py.get fare "price" PNone in
  if Py.truthy price then
    let* grade_name := Py.getitem fare "grade_name" in
    let* grade_code := Py.getitem fare "grade_code" in
    let* price := Py.getitem fare "price" in
    let* price_single := Py.get fare "price_single" (PStr "N/A") in
    let* flight_price := Py.get fare "flight_price" (PStr "N/A") in
    let* price_3_4_pax := Py.get fare "price_3_4_pax" (PStr "N/A") in
    let* flight_price_3_4_pax := Py.get fare "flight_price_3_4_pax" (PStr "N/A") in
    let* availability := Py.get fare "availability" (PStr "") in
    let* non_comm_charges := Py.get fare "non_comm_charges" (PInt 0) in
    Ok [ literal 16
      [ Blank;
        Field "Grade" (fmt grade_name +:+ " (" +:+ fmt grade_code +:+ ")");
        Field "Base Price" ("$" +:+ fmt price);
        Field "Single Price" ("$" +:+ fmt price_single);
        Field "Flight Price" ("$" +:+ fmt flight_price);
        Field "3rd/4th Guest Price" ("$" +:+ fmt price_3_4_pax);
        Field "Flight Price (3rd/4th)" ("$" +:+ fmt flight_price_3_4_pax);
        Field "Availability" (fmt availability);
        Field "Non-Comm Charges" ("$" +:+ fmt non_comm_charges);
        Line "" ] ]
  else Ok [].

Definition _format_fares (fares : pyval) : result string :=
  let* items := Py.iter fares in
  let* formatted := Py.for_each format_fare items in
  Ok (Str.join Str.NL (concat formatted)).

(** One fare set of [_format_fare_sets]. *)
Definition format_fare_set (fare_set : pyval) : result string :=
  let* name := Py.getitem fare_set "name" in
  let* deal_code := Py.getitem fare_set "deal_code" in
  let* airport := Py.get fare_set "airport" (PStr "Any") in
  let* port_charge := Py.get fare_set "port_charge" (PInt 0) in
  let* fares := Py.get fare_set "fares" (PList []) in
  let* cabins := _format_fares fares in
  Ok (literal 12
    [ Blank;
      Field "Deal" (fmt name);
      Field "Code" (fmt deal_code);
      Field "Airport" (fmt airport);
      Field "Port Charge" ("$" +:+ fmt port_charge);
      Line "";
      Line "Available Cabins:";
      Line cabins;
      Line "" ]).

Definition _format_fare_sets (fare_sets : pyval) : result string :=
  let* items := Py.iter fare_sets in
  let* formatted := Py.for_each format_fare_set items in
  Ok (Str.join Str.NL formatted).

(** The first literal of [ingest_cruise], line by line. *)
Definition cruise_rows (cruise_data : pyval) : result (list row) :=
  let* name := Py.getitem cruise_data "name" in
  let* ref := Py.getitem cruise_data "ref" in
  let* cruise_nights := Py.getitem cruise_data "cruise_nights" in
  let* cruise_type := Py.getitem cruise_data "cruise_type" in
  let* types := Py.join ", " cruise_type in
  let* regions := Py.getitem cruise_data "regions" in
  let* regions := Py.join ", " regions in
  let* starts_at := Py.getitem cruise_data "starts_at" in
  let* starts_on := Py.getitem cruise_data "starts_on" in
  let* ends_at := Py.getitem cruise_data "ends_at" in
  let* ends_on := Py.getitem cruise_data "ends_on" in
  let* vacation_days := Py.get cruise_data "vacation_days" (PStr "") in
  let* hotel_nights := Py.get cruise_data "hotel_nights" (PInt 0) in
  let* post_cruise := Py.get cruise_data "post_cruise" (PInt 0) in
  let* ship_title := Py.getitem cruise_data "ship_title" in
  let* operator_title := Py.getitem cruise_data "operator_title" in
  let* rating := Py.get cruise_data "rating" (PStr "") in
  let* cruise_only_price := Py.get cruise_data "cruise_only_price" (PStr "") in
  let* fly_cruise_price := Py.get cruise_data "fly_cruise_price" (PStr "") in
  let* inside_price := Py.get cruise_data "inside_price" (PStr "") in
  let* outside_price := Py.get cruise_data "outside_price" (PStr "") in
  let* balcony_price := Py.get cruise_data "balcony_price" (PStr "") in
  let* suite_price := Py.get cruise_data "suite_price" (PStr "") in
  Ok [ Blank;
       Line "CRUISE ITINERARY";
       Field "Name" (fmt name);
       Field "Reference" (fmt ref);
       Field "Duration" (fmt cruise_nights +:+ " nights");
       Field "Type" types;
       Field "Regions" regions;
       Blank;
       Line "Schedule:";
       Field "Departure" ("From " +:+ fmt starts_at +:+ " on " +:+ fmt starts_on);
       Field "Return" ("To " +:+ fmt ends_at +:+ " on " +:+ fmt ends_on);
       Field "Vacation Days" (fmt vacation_days);
       Field "Hotel Nights" (fmt hotel_nights);
       Field "Post Cruise Stay" (fmt post_cruise);
       Blank;
       Field "Ship" (fmt ship_title);
       Field "Operator" (fmt operator_title);
       Field "Rating" (fmt rating);
       Blank;
       Line "Pricing:";
       Field "Cruise Only From" ("$" +:+ fmt cruise_only_price);
       Field "Fly Cruise From" ("$" +:+ fmt fly_cruise_price);
       Field "Inside Cabins From" ("$" +:+ fmt inside_price);
       Field "Outside Cabins From" ("$" +:+ fmt outside_price);
       Field "Balcony Cabins From" ("$" +:+ fmt balcony_price);
       Field "Suites From" ("$" +:+ fmt suite_price);
       Blank;
       Line "" ].

(** What comes after the first literal: the itinerary, the fares and the
    airports. *)
Definition cruise_rest (cruise_data detailed_itinerary : pyval) : result string :=
  let* itinerary :=
    if Py.truthy detailed_itinerary then
      let* details := _format_detailed_itinerary detailed_itinerary in
      Ok (literal 12 [ Blank; Line "Itinerary Details:"; Line details; Line "" ])
    else Ok ("Itinerary Details: Not available." +:+ Str.NL) in
  let* fare_sets := Py.get cruise_data "fare_sets" (PList []) in
  let* fares := _format_fare_sets fare_sets in
  let* airports := Py.get cruise_data "airports" (PList []) in
  let* airports := Py.join ", " airports in
  Ok (itinerary
      +:+ literal 8 [ Blank; Line "Available Fares:"; Line fares; Blank;
                      Field "Departure Airports" airports; Line "" ]).

(** The text that [ingest_cruise] builds for a record with all the required
    keys. *)
Definition cruise_description (cruise_data : pyval) : result string :=
  let* detailed_itinerary := Py.get cruise_data "detailed_itinerary" (PList []) in
  let* rows := cruise_rows cruise_data in
  let* rest := cruise_rest cruise_data detailed_itinerary in
  Ok (literal 8 rows +:+ rest).

(** [ingest_cruise(cruise_data)]: the outcome and the store afterwards. *)
Definition ingest_cruise (cruise_data : pyval) (rag : rag_store)
  : result unit * rag_store :=
  match cruise_data with
  | PDict d =>
      let missing_keys :=
        filter (fun key => Py.lookup d key = None) required_keys in
      if negb (bool_decide (missing_keys = [])) then
        (Raise (KeyError ("Missing required keys in cruise_data: "
                          +:+ repr_keys missing_keys)), rag)
      else
        match cruise_description cruise_data with
        | Ok description => (Ok tt, rag_insert description rag)
        | Raise e => (Raise e, rag)
        end
  | _ => (Raise TypeError, rag)
  end.

End Ingestion.

(** ** The facet filter of [search] ([lightrag/CruiseRag.py]) *)

(** The bounds that [search] takes, with the types of its signature. *)
Record bounds : Type := Bounds {
  departure_date_lower : string;
  departure_date_upper : string;
  duration_lower : Z;
  duration_upper : Z;
  price_lower : pyfloat;
  price_upper : pyfloat;
  cruise_lines : list string;
  departure_ports : list string;
  adults_only : bool
}.

Module Cmp.

(** [a <= b] on floats: false as soon as one side is a NaN. *)
Definition float_le (a b : pyfloat) : bool :=
  match a, b with
  | FNan, _ | _, FNan => false
  | FInf true, _ => true
  | _, FInf false => true
  | FInf false, _ => false
  | _, FInf true => false
  | FNum p, FNum q => Qle_bool p q
  end.

(** The number a value stands for in a comparison: an [int] and a [bool]
    compare by their exact value, also against a [float]. *)
Definition number (x : value) : option pyfloat :=
  match x with
  | VInt z => Some (FNum (inject_Z z))
  | VBool b => Some (FNum (if b then 1 else 0))
  | VFloat f => Some f
  | VStr _ | VList _ => None
  end.

(** [lo <= x <= hi] with text bounds: only text compares with text. *)
Definition between_str (lo : string) (x : value) (hi : string) : result bool :=
  match x with
  | VStr s => Ok (String.leb lo s && String.leb s hi)
  | _ => Raise TypeError
  end.

(** [lo <= x <= hi] with numeric bounds. *)
Definition between_num (lo : pyfloat) (x : value) (hi : pyfloat) : result bool :=
  match number x with
  | Some n => Ok (float_le lo n && float_le n hi)
  | None => Raise TypeError
  end.

(** [x.split(', ')[-1] in allowed] *)
Definition last_item_in (x : value) (allowed : list string) : result bool :=
  match x with
  | VStr s =>
      match last (Str.split ", " s) with
      | Some item => Ok (bool_decide (item ∈ allowed))
      | None => Raise IndexError
      end
  | _ => Raise AttributeError
  end.

(** [x == flag] for a boolean [flag]; never raises. *)
Definition eq_bool (x : value) (flag : bool) : bool :=
  match x with
  | VBool b => Bool.eqb b flag
  | VInt z => z =? (if flag then 1 else 0)
  | VFloat (FNum q) => Qeq_bool q (if flag then 1 else 0)
  | VFloat _ | VStr _ | VList _ => false
  end.

(** [a and b]: [b] is looked at only when [a] is true. *)
Definition and_then (a b : result bool) : result bool :=
  let* x := a in if x then b else Ok false.

End Cmp.

(** [result.get(key, default)] *)
Definition get_default (r : gmap string value) (key : string) (default : value)
  : value :=
  from_option id default (r !! key).

(** The condition of the comprehension that builds [filtered_results]. *)
Definition facet_filter (b : bounds) (r : gmap string value) : result bool :=
  Cmp.and_then
    (Cmp.between_str (departure_date_lower b)
       (get_default r "Departure Date" (VStr "")) (departure_date_upper b))
  (Cmp.and_then
    (Cmp.between_num (FNum (inject_Z (duration_lower b)))
       (get_default r "Duration" (VInt 0)) (FNum (inject_Z (duration_upper b))))
  (Cmp.and_then
    (Cmp.between_num (price_lower b)
       (get_default r "Cruise Only From" (VInt 0)) (price_upper b))
  (Cmp.and_then
    (Cmp.last_item_in (get_default r "Cruise Lines" (VStr "")) (cruise_lines b))
  (Cmp.and_then
    (Cmp.last_item_in (get_default r "Departure Ports" (VStr ""))
       (departure_ports b))
    (Ok (Cmp.eq_bool (get_default r "Adults Only" (VBool false))
           (adults_only b))))))).

(** [[result for result in parsed_results if ...]] *)
Fixpoint filtered_results (b : bounds) (parsed_results : list (gmap string value))
  : result (list (gmap string value)) :=
  match parsed_results with
  | [] => Ok []
  | r :: rs =>
      let* keep := facet_filter b r in
      let* rest := filtered_results b rs in
      Ok (if keep then r :: rest else rest)
  end.

(** ** Notions used to state the properties *)

(** The four scalar kinds: everything but a list. *)
Definition scalar (x : value) : Prop :=
  match x with
  | VList _ => False
  | _ => True
  end.

Definition all_scalar (d : gmap string value) : Prop :=
  map_Forall (fun _ x => scalar x) d.

(** The character [c] occurs in [s]. *)
Fixpoint occurs (c : ascii) (s : string) : Prop :=
  match s with
  | "" => False
  | String x s' => x = c \/ occurs c s'
  end.

(** [current_key], once set, names a multi-line field that holds text. *)
Definition key_open (st : pstate) : Prop :=
  match current_key st with
  | Some k => k ∈ multiline_keys /\ exists s, data st !! k = Some (VStr s)
  | None => True
  end.


(** The coercion order as the specification words it (section 4.1, step 4):
    an ordered list of typed attempts, first match wins, the text itself when
    an attempt fails.  To be compared with [typed], which follows the code. *)
Definition coerce_as_specified (v : string) : value :=
  if bool_decide (Str.lower v = "true") then VBool true
  else if bool_decide (Str.lower v = "false") then VBool false
  else if Str.contains "." v then
    match Num.py_float v with
    | Ok f => VFloat f
    | Raise _ => VStr v
    end
  else
    match Num.py_int v with
    | Ok z => VInt z
    | Raise _ => VStr v
    end.

(** The facet fields as the filter reads them: what an absent field counts
    as. *)
Definition facet_defaults : list (string * value) :=
  [ ("Departure Date", VStr ""); ("Duration", VInt 0);
    ("Cruise Only From", VInt 0); ("Cruise Lines", VStr "");
    ("Departure Ports", VStr ""); ("Adults Only", VBool false) ].

Definition facet_text (r : gmap string value) (key : string) : string :=
  match r !! key with
  | Some (VStr s) => s
  | _ => ""
  end.

Definition facet_number (r : gmap string value) (key : string) : pyfloat :=
  match r !! key with
  | Some x => from_option id (FNum 0) (Cmp.number x)
  | None => FNum 0
  end.

(** The facet fields that are present have the type their comparison
    expects: text for the date, the lines and the ports, a number (or a
    boolean) for the duration and the price. *)
Definition facet_typed (r : gmap string value) : Prop :=
  (forall x, r !! "Departure Date" = Some x -> exists s, x = VStr s)
  /\ (forall x, r !! "Duration" = Some x -> is_Some (Cmp.number x))
  /\ (forall x, r !! "Cruise Only From" = Some x -> is_Some (Cmp.number x))
  /\ (forall x, r !! "Cruise Lines" = Some x -> exists s, x = VStr s)
  /\ (forall x, r !! "Departure Ports" = Some x -> exists s, x = VStr s).

(** Every bound of the caller holds for the record. *)
Definition bounds_satisfied (b : bounds) (r : gmap string value) : Prop :=
  String.leb (departure_date_lower b) (facet_text r "Departure Date") = true
  /\ String.leb (facet_text r "Departure Date") (departure_date_upper b) = true
  /\ Cmp.float_le (FNum (inject_Z (duration_lower b))) (facet_number r "Duration") = true
  /\ Cmp.float_le (facet_number r "Duration") (FNum (inject_Z (duration_upper b))) = true
  /\ Cmp.float_le (price_lower b) (facet_number r "Cruise Only From") = true
  /\ Cmp.float_le (facet_number r "Cruise Only From") (price_upper b) = true
  /\ (exists item, last (Str.split ", " (facet_text r "Cruise Lines")) = Some item
                   /\ item ∈ cruise_lines b)
  /\ (exists item, last (Str.split ", " (facet_text r "Departure Ports")) = Some item
                   /\ item ∈ departure_ports b)
  /\ Cmp.eq_bool (get_default r "Adults Only" (VBool false)) (adults_only b) = true.

(** What a line contributes as a header: the stripped key and value around
    its first [": "]. *)
Definition header_of (raw : string) : option (string * string) :=
  match Str.cut ": " (Str.strip raw) with
  | Some (k, v) => Some (Str.strip k, Str.strip v)
  | None => None
  end.

Definition header_key (raw : string) : option string :=
  fst <$> header_of raw.

(** A line that only holds whitespace. *)
Definition blank (raw : string) : Prop := Str.strip raw = "".

(** A header line that opens a multi-line field. *)
Definition opens_field (raw : string) : Prop :=
  exists k, header_key raw = Some k /\ k ∈ multiline_keys.

(** The non-blank lines without [": "], stripped. *)
Definition continuation_texts (lines : list string) : list string :=
  filter (fun l => l <> "" /\ header_of l = None) (map Str.strip lines).

(** * Properties *)

(** ** Strings *)

Module StrFacts.
Import Str.

Local Arguments String.append !_ _ /.

Lemma app_nil_r (s : string) : s +:+ "" = s.
Proof. induction s as [|c s IH]; simpl; [done | by rewrite IH]. Qed.

Lemma app_assoc (a b c : string) : (a +:+ b) +:+ c = a +:+ b +:+ c.
Proof. induction a as [|x a IH]; simpl; [done | by rewrite IH]. Qed.

Lemma prefix_app (sep v : string) : String.prefix sep (sep +:+ v) = true.
Proof.
  induction sep as [|c sep IH]; simpl; [by destruct v |].
  destruct (ascii_dec c c); [apply IH | done].
Qed.

Lemma drop_app (sep v : string) : drop (String.length sep) (sep +:+ v) = v.
Proof. induction sep as [|c sep IH]; simpl; [done | apply IH]. Qed.

(** [sub in s] holds exactly when there is a first occurrence to cut at. *)
Lemma cut_is_Some (sep s : string) :
  contains sep s = true <-> is_Some (cut sep s).
Proof.
  induction s as [|c s IH]; cbn [contains cut].
  - destruct (String.prefix sep ""); cbn; split; intros H; eauto;
      first [done | by destruct H].
  - destruct (String.prefix sep (String c s)); cbn; [split; eauto |].
    rewrite IH. destruct (cut sep s) as [[a b]|]; split; intros [x Hx]; eauto;
      done.
Qed.

Lemma cut_None (sep s : string) : contains sep s = false -> cut sep s = None.
Proof.
  intros H. destruct (cut sep s) eqn:E; [|done].
  assert (contains sep s = true) by (apply cut_is_Some; eauto). congruence.
Qed.

(** A line that contains the separator unpacks into exactly two parts. *)
Lemma splitn1_contains (sep s : string) :
  contains sep s = true -> exists a b, cut sep s = Some (a, b) /\ splitn 1 sep s = [a; b].
Proof.
  intros H. apply cut_is_Some in H as [[a b] E].
  exists a, b. split; [done |]. simpl. by rewrite E.
Qed.

(** *** Cutting at the first [": "] *)

Lemma prefix_cons (a b : ascii) (s1 s2 : string) :
  String.prefix (String a s1) (String b s2)
  = if ascii_dec a b then String.prefix s1 s2 else false.
Proof. done. Qed.

Lemma prefix_nil (s : string) : String.prefix "" s = true.
Proof. by destruct s. Qed.

Lemma prefix_colon_app (c : ascii) (k v : string) :
  String.prefix ": " (String c (k +:+ ": " +:+ v))
  = String.prefix ": " (String c (k +:+ ":")).
Proof.
  rewrite !prefix_cons. destruct (ascii_dec ":" c); [|done].
  destruct k as [|c' k]; [done |].
  cbn [String.append]. rewrite !prefix_cons, !prefix_nil.
  by destruct (ascii_dec " " c').
Qed.

(** [k] is the key of the line [k: v] when no [": "] starts inside [k]. *)
Lemma cut_first (k v : string) :
  contains ": " (k +:+ ":") = false ->
  cut ": " (k +:+ ": " +:+ v) = Some (k, v).
Proof.
  induction k as [|c k IH]; intros H.
  { cbn [String.append cut]. rewrite !prefix_cons. cbn. by rewrite prefix_nil. }
  change (String c k +:+ ":") with (String c (k +:+ ":")) in H.
  change (String c k +:+ ": " +:+ v) with (String c (k +:+ ": " +:+ v)).
  cbn [contains] in H. apply orb_false_elim in H as [Hp Hk].
  cbn [cut]. by rewrite prefix_colon_app, Hp, IH.
Qed.

Lemma contains_first (k v : string) : contains ": " (k +:+ ": " +:+ v) = true.
Proof.
  induction k as [|c k IH].
  { cbn [String.append contains]. rewrite !prefix_cons. cbn. by rewrite prefix_nil. }
  change (String c k +:+ ": " +:+ v) with (String c (k +:+ ": " +:+ v)).
  cbn [contains]. rewrite IH. apply orb_true_r.
Qed.

(** *** Stripping *)

Lemma lstrip_idem (s : string) : lstrip (lstrip s) = lstrip s.
Proof.
  induction s as [|c s IH]; [done |]. cbn.
  destruct (isspace c) eqn:E; [done |]. cbn. by rewrite E.
Qed.

Lemma rstrip_idem (s : string) : rstrip (rstrip s) = rstrip s.
Proof.
  induction s as [|c s IH]; [done |]. cbn.
  destruct (rstrip s) as [|c' r] eqn:Er.
  - destruct (isspace c) eqn:E; [done |]. cbn. by rewrite E.
  - cbn [rstrip]. cbn [rstrip] in IH. by rewrite IH.
Qed.

Lemma rstrip_lstrip (s : string) : rstrip (lstrip s) = lstrip (rstrip s).
Proof.
  induction s as [|c s IH]; [done |]. cbn [lstrip rstrip].
  destruct (isspace c) eqn:E.
  - rewrite IH. destruct (rstrip s) as [|c' r]; cbn; by rewrite ?E.
  - cbn [rstrip]. destruct (rstrip s) as [|c' r]; cbn; by rewrite E.
Qed.

Lemma strip_idem (s : string) : strip (strip s) = strip s.
Proof.
  unfold strip.
  by rewrite <-rstrip_lstrip, lstrip_idem, rstrip_lstrip, rstrip_idem.
Qed.

End StrFacts.

(** ** The parser never raises *)

Lemma py_int_raises (v : string) (e : exn) :
  Num.py_int v = Raise e -> e = ValueError.
Proof.
  unfold Num.py_int. destruct (Num.sign _) as [neg body].
  destruct (Num.digits _ _ _ _) as [[n count]|]; [|congruence].
  destruct (_ <? _)%nat; congruence.
Qed.

Lemma py_float_raises (v : string) (e : exn) :
  Num.py_float v = Raise e -> e = ValueError.
Proof.
  unfold Num.py_float. destruct (Num.strip_underscores _ _) as [t|]; [|congruence].
  destruct (Num.decimal t); [congruence |].
  destruct (Num.inf_or_nan t); congruence.
Qed.

Lemma convert_raises (v : string) (e : exn) :
  convert v = Raise e -> e = ValueError.
Proof.
  unfold convert. destruct (Str.contains "." v).
  - destruct (Num.py_float v) eqn:E; cbn; [done |].
    intros [= <-]. by eapply py_float_raises.
  - destruct (Num.py_int v) eqn:E; cbn; [done |].
    intros [= <-]. by eapply py_int_raises.
Qed.

(** The fallback of the [except] clause. *)
Lemma typed_fallback (v : string) (e : exn) :
  Str.lower v <> "true" -> Str.lower v <> "false" ->
  convert v = Raise e -> typed v = Ok (VStr v).
Proof.
  intros Ht Hf Hc. unfold typed.
  rewrite !bool_decide_eq_false_2 by done.
  rewrite Hc. by rewrite (convert_raises v e Hc).
Qed.

Lemma typed_total (v : string) : exists x, typed v = Ok x.
Proof.
  unfold typed. repeat case_bool_decide; eauto.
  destruct (convert v) as [x|e] eqn:E; cbn; eauto.
  rewrite (convert_raises v e E). eauto.
Qed.

Lemma typed_scalar (v : string) (x : value) : typed v = Ok x -> scalar x.
Proof.
  unfold typed. repeat case_bool_decide; try (by intros [= <-]).
  unfold convert.
  destruct (Str.contains "." v).
  - destruct (Num.py_float v) as [f|[]]; cbn; by intros [= <-].
  - destruct (Num.py_int v) as [z|[]]; cbn; by intros [= <-].
Qed.

Lemma process_line_total (st : pstate) (raw : string) :
  exists st', process_line st raw = Ok st'.
Proof.
  unfold process_line. case_bool_decide; [eauto |].
  destruct (Str.contains ": " (Str.strip raw)) eqn:Hc.
  - destruct (StrFacts.splitn1_contains _ _ Hc) as (a & b & _ & ->). cbn.
    case_bool_decide; [eauto |].
    destruct (typed_total (Str.strip b)) as [x ->]. cbn. eauto.
  - destruct (current_key st) as [k|]; [|eauto].
    destruct (truthy_key (Some k)); cbn; [|eauto].
    unfold append_to.
    destruct (data st !! k) as [[]|]; cbn; eauto.
Qed.

Lemma run_total (lines : list string) (st : pstate) :
  exists st', run st lines = Ok st'.
Proof.
  revert st. induction lines as [|l ls IH]; intros st; cbn; [eauto |].
  destruct (process_line_total st l) as [st' ->]. cbn. apply IH.
Qed.

(** ** Only scalar values are stored *)

Lemma process_line_scalar (st st' : pstate) (raw : string) :
  all_scalar (data st) -> process_line st raw = Ok st' -> all_scalar (data st').
Proof.
  intros Hs. unfold process_line. case_bool_decide; [by intros [= <-] |].
  destruct (Str.contains ": " (Str.strip raw)) eqn:Hc.
  - destruct (StrFacts.splitn1_contains _ _ Hc) as (a & b & _ & ->). cbn.
    case_bool_decide.
    + intros [= <-]. cbn. by apply map_Forall_insert_2.
    + destruct (typed (Str.strip b)) as [x|e] eqn:E; cbn; [|done].
      intros [= <-]. cbn. apply map_Forall_insert_2; [|done].
      by eapply typed_scalar.
  - destruct (current_key st) as [k|]; [|by intros [= <-]].
    destruct (truthy_key (Some k) && is_str (data st !! k)); [|by intros [= <-]].
    unfold append_to. destruct (data st !! k) as [[]|]; cbn; try done.
    intros [= <-]. cbn. by apply map_Forall_insert_2.
Qed.

Lemma run_scalar (lines : list string) (st st' : pstate) :
  all_scalar (data st) -> run st lines = Ok st' -> all_scalar (data st').
Proof.
  revert st. induction lines as [|l ls IH]; intros st Hs; cbn.
  - by intros [= <-].
  - destruct (process_line st l) as [st1|] eqn:E; cbn; [|done].
    apply IH. by eapply process_line_scalar.
Qed.

(** ** Text with a colon is neither a boolean nor a number *)

Module ColonFacts.

Abbreviation colon := ":"%char.

Lemma contains_occurs (c : ascii) (t s : string) :
  Str.contains (String c t) s = true -> occurs c s.
Proof.
  induction s as [|x s IH]; cbn [Str.contains]; [done |].
  rewrite StrFacts.prefix_cons. intros [H|H]%orb_prop.
  - destruct (ascii_dec c x); [by left | done].
  - right. by apply IH.
Qed.

Lemma occurs_lskip (s : string) : occurs colon s -> occurs colon (Num.lskip s).
Proof.
  induction s as [|x s IH]; [done |]. cbn.
  destruct (Num.isspace x) eqn:E; [|done].
  intros [->|H]; [by vm_compute in E | by apply IH].
Qed.

Lemma occurs_rskip (s : string) : occurs colon s -> occurs colon (Num.rskip s).
Proof.
  induction s as [|x s IH]; [done |]. cbn.
  intros [->|H].
  - destruct (Num.rskip s); by left.
  - specialize (IH H). destruct (Num.rskip s); [done | by right].
Qed.

Lemma occurs_skip (s : string) : occurs colon s -> occurs colon (Num.skip s).
Proof. intros H. by apply occurs_lskip, occurs_rskip. Qed.

Lemma occurs_sign (s : string) :
  occurs colon s -> occurs colon (Num.sign s).2.
Proof.
  destruct s as [|x s]; [done |]. intros [->|H]; [by left |].
  unfold Num.sign.
  destruct (decide (x = "+"%char)) as [->|]; [done |].
  destruct (decide (x = "-"%char)) as [->|]; [done |].
  assert (forall (A : Type) (a b c : A),
    match x with "+"%char => a | "-"%char => b | _ => c end = c) as ->;
    [|by right].
  intros A a b c. destruct x as [[] [] [] [] [] [] [] []]; done.
Qed.

Lemma digits_occurs (s : string) (acc : Z) (n : nat) (b : bool) :
  occurs colon s -> Num.digits acc n b s = None.
Proof.
  revert acc n b. induction s as [|x s IH]; intros acc n b; [done |].
  intros [->|H]; cbn [Num.digits]; [by vm_compute |].
  destruct (Num.digit_of x); [by apply IH |].
  destruct (_ && _); [by apply IH | done].
Qed.

Lemma py_int_occurs (s : string) :
  occurs colon s -> Num.py_int s = Raise ValueError.
Proof.
  intros H%occurs_skip%occurs_sign. unfold Num.py_int.
  destruct (Num.sign _) as [neg body]. cbn in H.
  by rewrite digits_occurs.
Qed.

Lemma strip_underscores_occurs (s t : string) (prev : option ascii) :
  occurs colon s -> Num.strip_underscores prev s = Some t -> occurs colon t.
Proof.
  revert t prev. induction s as [|x s IH]; intros t prev; [done |].
  cbn [Num.strip_underscores occurs]. intros Hx.
  destruct (Ascii.eqb x "_") eqn:E.
  - apply Ascii.eqb_eq in E as ->. destruct Hx as [|Hx]; [done |].
    destruct prev as [p|]; [|done]. destruct (Num.is_digit p); [|done].
    by apply IH.
  - destruct (_ && _); [done |].
    destruct (Num.strip_underscores (Some x) s) as [t'|] eqn:Et; [|done].
    cbn. intros [= <-]. destruct Hx as [->|Hx]; [by left |].
    right. by eapply IH.
Qed.

Lemma digit_run_occurs (s : string) (acc : Z) (n : nat) :
  occurs colon s -> occurs colon (Num.digit_run acc n s).2.
Proof.
  revert acc n. induction s as [|x s IH]; intros acc n; [done |].
  intros [->|H]; cbn [Num.digit_run]; [by left |].
  destruct (Num.digit_of x); [by apply IH | by right].
Qed.

Lemma exponent_occurs (s : string) : occurs colon s -> Num.exponent s = None.
Proof.
  destruct s as [|x s]; [done |]. intros [->|H]; [done |].
  unfold Num.exponent. destruct (_ || _); [|done].
  pose proof (occurs_sign s H) as Hs. destruct (Num.sign s) as [neg body].
  cbn in Hs. pose proof (digit_run_occurs body 0 0 Hs) as Hr.
  destruct (Num.digit_run 0 0 body) as [[e n] rest]. cbn in Hr.
  destruct n; [done |]. by destruct rest.
Qed.

Lemma decimal_occurs (s : string) : occurs colon s -> Num.decimal s = None.
Proof.
  intros H%occurs_sign. unfold Num.decimal.
  destruct (Num.sign s) as [neg body]. cbn in H.
  pose proof (digit_run_occurs body 0 0 H) as Hr.
  destruct (Num.digit_run 0 0 body) as [[i ni] rest]. cbn in Hr.
  assert (exists m nf rest',
    match rest with
    | String "." rest' => Num.digit_run i 0 rest'
    | _ => (i, O, rest)
    end = (m, nf, rest') /\ occurs colon rest') as (m & nf & rest' & -> & Hr').
  { destruct rest as [|x rest]; [done |].
    destruct (decide (x = "."%char)) as [->|Hx].
    - destruct Hr as [|Hr]; [done |].
      pose proof (digit_run_occurs rest i 0 Hr) as Hr'.
      destruct (Num.digit_run i 0 rest) as [[m nf] rest']. eauto.
    - exists i, O, (String x rest). split; [|done].
      destruct x as [[] [] [] [] [] [] [] []]; done. }
  destruct (_ =? _)%nat; [done |]. by rewrite exponent_occurs.
Qed.

Lemma occurs_lower (s : string) : occurs colon s -> occurs colon (Str.lower s).
Proof.
  induction s as [|x s IH]; [done |]. cbn.
  intros [->|H]; [by left | right; by apply IH].
Qed.

Lemma occurs_not_word (w : string) :
  occurs colon w ->
  ~ (w = "inf" \/ w = "infinity") /\ w <> "nan" /\ w <> "true" /\ w <> "false".
Proof.
  intros H. split_and!; [intros [-> | ->] | intros -> ..];
    cbn in H; repeat (destruct H as [H|H]; [discriminate H |]); done.
Qed.

Lemma inf_or_nan_occurs (s : string) :
  occurs colon s -> Num.inf_or_nan s = None.
Proof.
  intros H%occurs_sign. unfold Num.inf_or_nan.
  destruct (Num.sign s) as [neg body]. cbn in H.
  apply occurs_lower, occurs_not_word in H as (Hinf & Hnan & _).
  by rewrite !bool_decide_eq_false_2.
Qed.

Lemma py_float_occurs (s : string) :
  occurs colon s -> Num.py_float s = Raise ValueError.
Proof.
  intros H%occurs_skip. unfold Num.py_float.
  destruct (Num.strip_underscores None (Num.skip s)) as [t|] eqn:Et; [|done].
  pose proof (strip_underscores_occurs _ _ _ H Et) as Ht.
  by rewrite decimal_occurs, inf_or_nan_occurs.
Qed.

(** A value with a colon is stored as the text it is. *)
Lemma typed_occurs (v : string) : occurs colon v -> typed v = Ok (VStr v).
Proof.
  intros H. unfold typed.
  destruct (occurs_not_word _ (occurs_lower v H)) as (_ & _ & Ht & Hf).
  rewrite !bool_decide_eq_false_2 by done.
  unfold convert. rewrite py_float_occurs, py_int_occurs by done.
  by destruct (Str.contains "." v).
Qed.

End ColonFacts.

(** ** Header lines and the open field *)

Lemma process_header (st : pstate) (raw k v : string) :
  Str.strip raw = k +:+ ": " +:+ v ->
  Str.contains ": " (k +:+ ":") = false ->
  process_line st raw =
    if bool_decide (Str.strip k ∈ multiline_keys)
    then Ok (PState (<[Str.strip k := VStr (Str.strip v)]> (data st))
                    (Some (Str.strip k)))
    else let* x := typed (Str.strip v) in
         Ok (PState (<[Str.strip k := x]> (data st)) (current_key st)).
Proof.
  intros Hraw Hk. unfold process_line. rewrite Hraw.
  rewrite bool_decide_eq_false_2 by (by destruct k).
  rewrite StrFacts.contains_first. cbn [Str.splitn].
  by rewrite (StrFacts.cut_first k v Hk).
Qed.

Lemma process_continuation (st : pstate) (raw : string) :
  Str.strip raw <> "" ->
  Str.contains ": " (Str.strip raw) = false ->
  process_line st raw =
    match current_key st with
    | Some k =>
        match data st !! k with
        | Some (VStr s) =>
            if truthy_key (Some k)
            then Ok (PState (<[k := VStr (s +:+ " " +:+ Str.strip raw)]> (data st))
                            (current_key st))
            else Ok st
        | _ => Ok st
        end
    | None => Ok st
    end.
Proof.
  intros Hne Hc. unfold process_line.
  rewrite bool_decide_eq_false_2, Hc by done.
  destruct (current_key st) as [k|]; [|done].
  unfold append_to. rewrite StrFacts.strip_idem.
  destruct (truthy_key (Some k)); destruct (data st !! k) as [[]|]; done.
Qed.

Lemma multiline_key_nonempty (k : string) : k ∈ multiline_keys -> truthy_key (Some k) = true.
Proof.
  intros H. destruct k; [|done].
  by assert (bool_decide ("" ∈ multiline_keys) = false) as ?%bool_decide_eq_false by by vm_compute.
Qed.

Lemma process_line_key_open (st st' : pstate) (raw : string) :
  key_open st -> process_line st raw = Ok st' -> key_open st'.
Proof.
  intros Hinv. unfold process_line. case_bool_decide; [by intros [= <-] |].
  destruct (Str.contains ": " (Str.strip raw)) eqn:Hc.
  - destruct (StrFacts.splitn1_contains _ _ Hc) as (a & b & _ & ->). cbn.
    case_bool_decide as Hm.
    + intros [= <-]. split; [done |]. cbn. rewrite lookup_insert_eq. eauto.
    + destruct (typed (Str.strip b)) as [x|]; cbn; [|done].
      intros [= <-]. unfold key_open in *. cbn.
      destruct (current_key st) as [k|]; [|done].
      destruct Hinv as [Hk Hs]. split; [done |].
      rewrite lookup_insert_ne; [done | intros E; by rewrite E in Hm].
  - destruct (current_key st) as [k|] eqn:Ek; [|by intros [= <-]].
    destruct (truthy_key (Some k) && is_str (data st !! k)); [|by intros [= <-]].
    unfold append_to. destruct (data st !! k) as [[]|]; cbn; try done.
    intros [= <-]. unfold key_open in *. cbn. rewrite Ek in *.
    split; [apply Hinv |]. rewrite lookup_insert_eq. eauto.
Qed.

Lemma run_key_open (lines : list string) (st st' : pstate) :
  key_open st -> run st lines = Ok st' -> key_open st'.
Proof.
  revert st. induction lines as [|l ls IH]; intros st Hinv; cbn.
  - by intros [= <-].
  - destruct (process_line st l) as [st1|] eqn:E; cbn; [|done].
    apply IH. by eapply process_line_key_open.
Qed.

Lemma typed_as_specified (v : string) : typed v = Ok (coerce_as_specified v).
Proof.
  unfold typed, coerce_as_specified, convert. repeat case_bool_decide; try done.
  destruct (Str.contains "." v).
  - destruct (Num.py_float v) as [f|e] eqn:E; cbn; [done |].
    by rewrite (py_float_raises v e E).
  - destruct (Num.py_int v) as [z|e] eqn:E; cbn; [done |].
    by rewrite (py_int_raises v e E).
Qed.


(** ** The description parser: the stated properties *)

(** C1. For every input string [parse_description] returns a dictionary and
    never raises.  A [float]/[int] attempt that fails is caught where it
    happens: the header line then stores the stripped text itself. *)
Theorem parse_description_never_raises :
  (forall description : string, exists d, parse_description description = Ok d)
  /\ (forall (st : pstate) (raw k v : string) (e : exn),
        Str.strip raw = k +:+ ": " +:+ v ->
        Str.contains ": " (k +:+ ":") = false ->
        Str.strip k ∉ multiline_keys ->
        Str.lower (Str.strip v) <> "true" ->
        Str.lower (Str.strip v) <> "false" ->
        convert (Str.strip v) = Raise e ->
        process_line st raw
        = Ok (PState (<[Str.strip k := VStr (Str.strip v)]> (data st))
                     (current_key st))).
Proof.
  split.
  - intros description. unfold parse_description.
    destruct (run_total (Str.split Str.NL (Str.strip description)) initial)
      as [st ->].
    cbn. eauto.
  - intros st raw k v e Hraw Hk Hm Ht Hf Hc.
    rewrite (process_header st raw k v Hraw Hk).
    rewrite bool_decide_eq_false_2 by done.
    by rewrite (typed_fallback _ e Ht Hf Hc).
Qed.

Lemma parse_description_never_raises_witness :
  exists d, parse_description "Price: 10.5.5" = Ok d
  /\ process_line initial "Price: 10.5.5"
     = Ok (PState (<["Price" := VStr "10.5.5"]> ∅) None).
Proof.
  destruct (proj1 parse_description_never_raises "Price: 10.5.5") as [d Hd].
  exists d. split; [done |].
  apply (proj2 parse_description_never_raises initial "Price: 10.5.5"
           "Price" "10.5.5" ValueError); by vm_compute.
Defined.

(** C10. Every value of the dictionary that [parse_description] returns is
    a string, a boolean, an integer or a float: a list of strings, which the
    annotation of the function admits, is never produced. *)
Theorem parse_description_values_are_scalars (description : string) :
  exists d, parse_description description = Ok d
    /\ forall (k : string) (x : value), d !! k = Some x ->
         match x with
         | VStr _ | VBool _ | VInt _ | VFloat _ => True
         | VList _ => False
         end.
Proof.
  unfold parse_description.
  destruct (run_total (Str.split Str.NL (Str.strip description)) initial)
    as [st Hst].
  rewrite Hst. cbn. exists (data st). split; [done |].
  intros k x Hx.
  assert (all_scalar (data st)) as Hall.
  { eapply run_scalar; [|exact Hst]. apply map_Forall_empty. }
  by apply (Hall k x Hx).
Qed.





(** C7. A header line whose key is in the multi-line set stores the stripped
    value as a string under that key and makes it the open field; no boolean
    or numeric coercion happens, so a first line [3] is stored as the string
    ["3"] for each of the multi-line keys. *)
Theorem multiline_header_stores_text :
  (forall (st : pstate) (raw k v : string),
      Str.strip raw = k +:+ ": " +:+ v ->
      Str.contains ": " (k +:+ ":") = false ->
      Str.strip k ∈ multiline_keys ->
      process_line st raw
      = Ok (PState (<[Str.strip k := VStr (Str.strip v)]> (data st))
                   (Some (Str.strip k))))
  /\ (forall key : string, key ∈ multiline_keys ->
        parse_description (key +:+ ": 3") = Ok (<[key := VStr "3"]> ∅)).
Proof.
  split.
  - intros st raw k v Hraw Hk Hm.
    rewrite (process_header st raw k v Hraw Hk).
    by rewrite bool_decide_eq_true_2.
  - intros key Hkey. unfold multiline_keys in Hkey.
    rewrite elem_of_list_to_set in Hkey.
    repeat (apply elem_of_cons in Hkey as [->|Hkey]; [by vm_compute |]).
    by apply elem_of_nil in Hkey.
Qed.

Lemma multiline_header_stores_text_witness :
  process_line initial "Cabin Types: true"
  = Ok (PState (<["Cabin Types" := VStr "true"]> ∅) (Some "Cabin Types"))
  /\ parse_description "Description: 3" = Ok (<["Description" := VStr "3"]> ∅).
Proof.
  split.
  - apply (proj1 multiline_header_stores_text initial "Cabin Types: true"
             "Cabin Types" "true"); by vm_compute.
  - apply (proj2 multiline_header_stores_text "Description"). by vm_compute.
Defined.

(** C8. A line with [": "] is split at the first occurrence only: the value
    part keeps every later [": "], and a value that (stripped) still contains
    one is stored as that very text.  ["Key: a: b"] gives the single entry
    [Key] -> ["a: b"]. *)
Theorem value_keeps_later_delimiters :
  (forall (st : pstate) (raw k v : string),
      Str.strip raw = k +:+ ": " +:+ v ->
      Str.contains ": " (k +:+ ":") = false ->
      Str.splitn 1 ": " (Str.strip raw) = [k; v]
      /\ (Str.contains ": " (Str.strip v) = true ->
          process_line st raw
          = Ok (PState (<[Str.strip k := VStr (Str.strip v)]> (data st))
                       (if bool_decide (Str.strip k ∈ multiline_keys)
                        then Some (Str.strip k) else current_key st))))
  /\ parse_description "Key: a: b" = Ok (<["Key" := VStr "a: b"]> ∅).
Proof.
  split; [|by vm_compute].
  intros st raw k v Hraw Hk. split.
  - rewrite Hraw. cbn [Str.splitn]. by rewrite (StrFacts.cut_first k v Hk).
  - intros Hv. rewrite (process_header st raw k v Hraw Hk).
    case_bool_decide; [done |].
    by rewrite (ColonFacts.typed_occurs _ (ColonFacts.contains_occurs _ _ _ Hv)).
Qed.

Lemma value_keeps_later_delimiters_witness :
  Str.splitn 1 ": " (Str.strip " Route: Rome: Athens: Rome ") = ["Route"; "Rome: Athens: Rome"]
  /\ process_line initial " Route: Rome: Athens: Rome "
     = Ok (PState (<["Route" := VStr "Rome: Athens: Rome"]> ∅) None).
Proof.
  destruct (proj1 value_keeps_later_delimiters initial
              " Route: Rome: Athens: Rome " "Route" "Rome: Athens: Rome")
    as [Hs Hp]; [by vm_compute | by vm_compute |].
  split; [exact Hs |]. apply Hp. by vm_compute.
Defined.

(** C9. A line with a colon but no space after it (no [": "] anywhere) is
    not a header: it raises nothing, creates no key and leaves [current_key]
    alone; it is appended to the open multi-line field when that field holds
    text, and dropped otherwise.  So ["Key:value"] alone parses to the empty
    dictionary, and after [Description: a] it extends [Description]. *)
Theorem colon_without_space_is_continuation :
  (forall (st : pstate) (raw : string),
      Str.strip raw <> "" ->
      Str.contains ": " (Str.strip raw) = false ->
      exists st', process_line st raw = Ok st'
        /\ dom (data st') = dom (data st)
        /\ current_key st' = current_key st
        /\ (st' = st
            \/ exists k s, current_key st = Some k
                 /\ data st !! k = Some (VStr s)
                 /\ data st' = <[k := VStr (s +:+ " " +:+ Str.strip raw)]> (data st)))
  /\ parse_description "Key:value" = Ok ∅
  /\ parse_description ("Description: a" +:+ Str.NL +:+ "Key:value")
     = Ok (<["Description" := VStr "a Key:value"]> ∅).
Proof.
  split_and!; [|by vm_compute..].
  intros st raw Hne Hc. rewrite (process_continuation st raw Hne Hc).
  destruct (current_key st) as [k|] eqn:Ek; [|by eauto 6].
  destruct (data st !! k) as [[s| | | |]|] eqn:Es; try by eauto 6.
  destruct (truthy_key (Some k)); [|by eauto 6].
  eexists. split; [done |]. cbn. split_and!; [|done |by eauto 8].
  apply dom_insert_lookup_L. by rewrite Es.
Qed.

Lemma colon_without_space_is_continuation_witness :
  exists st',
    process_line (PState (<["Description" := VStr "a"]> ∅) (Some "Description"))
                 "Key:value" = Ok st'
    /\ dom (data st') = dom (<["Description" := VStr "a"]> (∅ : gmap string value)).
Proof.
  destruct (proj1 colon_without_space_is_continuation
              (PState (<["Description" := VStr "a"]> ∅) (Some "Description"))
              "Key:value") as (st' & H1 & H2 & _); [by vm_compute | by vm_compute |].
  exists st'. by split.
Defined.

(** ** Ingestion of a cruise *)

Section IngestionFacts.

Context (html_unescape : string -> string) (py_repr : pyval -> string).

Lemma required_keys_NoDup : NoDup required_keys.
Proof. by apply (bool_decide_unpack _). Qed.

(** C3. For a dictionary that lacks at least one required key,
    [ingest_cruise] raises one [KeyError] whose message lists the missing
    required keys and nothing else (in the order of [required_keys], each
    once); the outcome is a function of the record's keys alone, whatever
    the fields hold, and the store of the retrieval service is left as it
    was. *)
Theorem ingest_cruise_reports_missing_keys
  (d : list (string * pyval)) (rag : rag_store) :
  (exists k, k ∈ required_keys /\ Py.lookup d k = None) ->
  let missing := filter (fun key => Py.lookup d key = None) required_keys in
  ingest_cruise html_unescape py_repr (PDict d) rag
  = (Raise (KeyError ("Missing required keys in cruise_data: "
                      +:+ repr_keys missing)), rag)
  /\ missing <> []
  /\ (forall k, k ∈ missing <-> k ∈ required_keys /\ Py.lookup d k = None)
  /\ sublist missing required_keys
  /\ NoDup missing.
Proof.
  intros (k & Hk & Hd) missing.
  assert (missing <> []) as Hne.
  { intros E. by apply (filter_nil_not_elem_of _ _ k E Hd). }
  split_and!.
  - unfold ingest_cruise. fold missing.
    by rewrite bool_decide_eq_false_2.
  - done.
  - intros k'. unfold missing. rewrite list_elem_of_filter. tauto.
  - apply sublist_filter.
  - apply NoDup_filter, required_keys_NoDup.
Qed.

End IngestionFacts.

Lemma ingest_cruise_reports_missing_keys_witness :
  ingest_cruise (fun s => s) (fun _ => "")
    (PDict [ ("name", PStr "Nile"); ("ref", PInt 7); ("cruise_type", PInt 0);
             ("regions", PList []); ("starts_at", PStr "Luxor");
             ("ends_at", PStr "Aswan"); ("ship_title", PStr "Isis");
             ("operator_title", PStr "Ra"); ("fare_sets", PList []) ])
    ["earlier text"]
  = (Raise (KeyError "Missing required keys in cruise_data: ['cruise_nights', 'starts_on', 'ends_on']"),
     ["earlier text"]).
Proof.
  refine (proj1 (ingest_cruise_reports_missing_keys (fun s => s) (fun _ => "")
    [ ("name", PStr "Nile"); ("ref", PInt 7); ("cruise_type", PInt 0);
      ("regions", PList []); ("starts_at", PStr "Luxor");
      ("ends_at", PStr "Aswan"); ("ship_title", PStr "Isis");
      ("operator_title", PStr "Ra"); ("fare_sets", PList []) ]
    ["earlier text"] _)).
  exists "starts_on". split; [|done]. unfold required_keys. set_solver.
Defined.


(** ** The facet filter *)

Lemma split_last (sep s : string) : exists item, last (Str.split sep s) = Some item.
Proof.
  apply last_is_Some. unfold Str.split.
  destruct (String.length s); cbn; [done |]. by destruct (Str.cut sep s) as [[]|].
Qed.

Lemma between_str_typed (lo hi : string) (r : gmap string value) (key : string) :
  (forall x, r !! key = Some x -> exists s, x = VStr s) ->
  Cmp.between_str lo (get_default r key (VStr "")) hi
  = Ok (String.leb lo (facet_text r key) && String.leb (facet_text r key) hi).
Proof.
  intros H. unfold get_default, facet_text.
  destruct (r !! key) as [x|]; [|done].
  by destruct (H x eq_refl) as [s ->].
Qed.

Lemma between_num_typed (lo hi : pyfloat) (r : gmap string value) (key : string) :
  (forall x, r !! key = Some x -> is_Some (Cmp.number x)) ->
  Cmp.between_num lo (get_default r key (VInt 0)) hi
  = Ok (Cmp.float_le lo (facet_number r key) && Cmp.float_le (facet_number r key) hi).
Proof.
  intros H. unfold get_default, facet_number, Cmp.between_num.
  destruct (r !! key) as [x|]; [|done]. cbn.
  by destruct (H x eq_refl) as [n ->].
Qed.

Lemma last_item_in_typed (allowed : list string) (r : gmap string value) (key : string) :
  (forall x, r !! key = Some x -> exists s, x = VStr s) ->
  exists item, last (Str.split ", " (facet_text r key)) = Some item
    /\ Cmp.last_item_in (get_default r key (VStr "")) allowed
       = Ok (bool_decide (item ∈ allowed)).
Proof.
  intros H. unfold get_default, facet_text.
  destruct (r !! key) as [x|]; cbn.
  - destruct (H x eq_refl) as [s ->]. cbn.
    destruct (split_last ", " s) as [item Hi]. exists item. by rewrite Hi.
  - by exists "".
Qed.

(** An absent field and the field holding its default are the same to the
    filter. *)
Lemma get_default_insert (r : gmap string value) (key k : string) (d x : value) :
  r !! key = None ->
  get_default (<[key := d]> r) k x
  = if bool_decide (key = k) then d else get_default r k x.
Proof.
  intros H. unfold get_default. case_bool_decide as E.
  - subst. by rewrite lookup_insert_eq.
  - by rewrite lookup_insert_ne.
Qed.

Lemma facet_filter_default (b : bounds) (r : gmap string value) (key : string) (d : value) :
  (key, d) ∈ facet_defaults -> r !! key = None ->
  facet_filter b r = facet_filter b (<[key := d]> r).
Proof.
  intros Hin Hr. unfold facet_filter.
  rewrite !(get_default_insert r key _ d _ Hr).
  unfold facet_defaults in Hin.
  repeat (apply elem_of_cons in Hin as [[= -> ->]|Hin];
          [cbn; unfold get_default; by rewrite Hr |]).
  by apply elem_of_nil in Hin.
Qed.

Lemma and_then_Ok (a b : bool) : Cmp.and_then (Ok a) (Ok b) = Ok (a && b).
Proof. by destruct a. Qed.

Lemma facet_filter_typed (b : bounds) (r : gmap string value) :
  facet_typed r ->
  exists verdict, facet_filter b r = Ok verdict
    /\ (verdict = true <-> bounds_satisfied b r).
Proof.
  intros (Hdate & Hdur & Hprice & Hlines & Hports).
  unfold facet_filter, bounds_satisfied.
  rewrite (between_str_typed _ _ r _ Hdate).
  rewrite (between_num_typed _ _ r _ Hdur), (between_num_typed _ _ r _ Hprice).
  destruct (last_item_in_typed (cruise_lines b) r _ Hlines) as (i1 & Hi1 & ->).
  destruct (last_item_in_typed (departure_ports b) r _ Hports) as (i2 & Hi2 & ->).
  rewrite Hi1, Hi2, !and_then_Ok.
  eexists. split; [done |].
  rewrite !andb_true_iff, !bool_decide_eq_true. split.
  - intros ((? & ?) & (? & ?) & (? & ?) & ? & ? & ?). split_and!; eauto.
  - intros (? & ? & ? & ? & ? & ? & (? & [= <-] & ?) & (? & [= <-] & ?) & ?).
    done.
Qed.

(** X1. For a record whose facet fields, where present, have
    the type their comparison expects, the filter raises nothing and accepts
    the record exactly when every bound holds: date, duration and price
    within their ranges, the last [", "]-separated item of the lines field
    and of the ports field among the allowed ones, the adults-only field
    equal to the flag.  An absent field is read as its default (empty text,
    zero, false): the filter treats the record as if the field held that
    default, so the check fails only when the bounds exclude the default. *)
Theorem facet_filter_accepts_iff_bounds_hold (b : bounds) (r : gmap string value) :
  facet_typed r ->
  (exists verdict, facet_filter b r = Ok verdict
     /\ (verdict = true <-> bounds_satisfied b r))
  /\ (forall (key : string) (d : value),
        (key, d) ∈ facet_defaults -> r !! key = None ->
        facet_filter b r = facet_filter b (<[key := d]> r)).
Proof.
  intros Ht. split.
  - by apply facet_filter_typed.
  - intros key d. apply facet_filter_default.
Qed.

Lemma facet_filter_accepts_iff_bounds_hold_witness :
  let b := Bounds "2024-06-01" "2024-08-31" 7 14 (FNum (1000 # 1)) (FNum (3000 # 1))
                  ["Viking"; "Norwegian"] ["Miami"; "Fort Lauderdale"] true in
  let r : gmap string value :=
    <["Departure Date" := VStr "2024-07-04"]> (<["Duration" := VInt 7]>
      (<["Cruise Only From" := VFloat (FNum (2599 # 2))]>
        (<["Cruise Lines" := VStr "Viking"]> (<["Adults Only" := VBool true]> ∅)))) in
  exists verdict, facet_filter b r = Ok verdict
    /\ (verdict = true <-> bounds_satisfied b r).
Proof.
  intros b r.
  refine (proj1 (facet_filter_accepts_iff_bounds_hold b r _)).
  split_and!; intros x Hx; vm_compute in Hx; simplify_eq; eauto.
Defined.

(** Two concrete runs of the filter: a record with none of the facet fields
    is accepted when the bounds admit the defaults; a parsed record whose
    [Duration] is text, as in [Duration: 7 nights], makes it raise
    [TypeError]. *)
Lemma facet_filter_missing_data_passes_and_text_raises :
  facet_filter (Bounds "" "2024-08-31" 0 14 (FNum 0) (FNum (3000 # 1))
                       [""; "Viking"] [""; "Miami"] false) ∅
  = Ok true
  /\ exists r, parse_description "Duration: 7 nights" = Ok r
       /\ facet_filter (Bounds "" "2024-08-31" 7 14 (FNum 0) (FNum (3000 # 1))
                               ["Viking"] ["Miami"] true) r
          = Raise TypeError.
Proof.
  split; [by vm_compute |].
  exists (<["Duration" := VStr "7 nights"]> ∅). split; by vm_compute.
Qed.

(** ** The parser, line by line *)

Lemma header_of_strip (raw : string) : header_of (Str.strip raw) = header_of raw.
Proof. unfold header_of. by rewrite StrFacts.strip_idem. Qed.

Lemma process_line_strip (st : pstate) (raw : string) :
  process_line st (Str.strip raw) = process_line st raw.
Proof. unfold process_line. by rewrite !StrFacts.strip_idem. Qed.

Lemma process_line_blank (st : pstate) (raw : string) :
  blank raw -> process_line st raw = Ok st.
Proof. intros H. unfold process_line. by rewrite H. Qed.

Lemma blank_header_of (raw : string) : blank raw -> header_of raw = None.
Proof. intros H. unfold header_of. by rewrite H. Qed.

Lemma process_line_header (st : pstate) (raw k v : string) :
  header_of raw = Some (k, v) ->
  process_line st raw =
    if bool_decide (k ∈ multiline_keys)
    then Ok (PState (<[k := VStr v]> (data st)) (Some k))
    else Ok (PState (<[k := coerce_as_specified v]> (data st)) (current_key st)).
Proof.
  unfold header_of. destruct (Str.cut ": " (Str.strip raw)) as [[a b]|] eqn:E; [|done].
  intros [= <- <-]. unfold process_line.
  assert (Str.contains ": " (Str.strip raw) = true) as ->
    by (apply StrFacts.cut_is_Some; eauto).
  rewrite bool_decide_eq_false_2 by (intros E'; by rewrite E' in E).
  cbn [Str.splitn]. rewrite E. cbn.
  case_bool_decide; [done |]. by rewrite typed_as_specified.
Qed.

Lemma process_line_text (st : pstate) (raw : string) :
  ~ blank raw -> header_of raw = None ->
  process_line st raw =
    match current_key st with
    | Some k =>
        match data st !! k with
        | Some (VStr s) =>
            if truthy_key (Some k)
            then Ok (PState (<[k := VStr (s +:+ " " +:+ Str.strip raw)]> (data st))
                            (current_key st))
            else Ok st
        | _ => Ok st
        end
    | None => Ok st
    end.
Proof.
  intros Hb Hh. apply process_continuation; [done |].
  unfold header_of in Hh.
  destruct (Str.contains ": " (Str.strip raw)) eqn:E; [|done].
  apply StrFacts.cut_is_Some in E as [[a b] E]. by rewrite E in Hh.
Qed.

Lemma run_app (st : pstate) (l1 l2 : list string) :
  run st (l1 ++ l2) = let* st' := run st l1 in run st' l2.
Proof.
  revert st. induction l1 as [|l l1 IH]; intros st; cbn; [done |].
  destruct (process_line st l); cbn; [apply IH | done].
Qed.

(** Only the stripped, non-blank lines count. *)
Lemma run_stripped (st : pstate) (lines : list string) :
  run st lines = run st (filter (fun l => l <> "") (map Str.strip lines)).
Proof.
  revert st. induction lines as [|l ls IH]; intros st; [done |].
  cbn [run map]. destruct (decide (Str.strip l = "")) as [E|E].
  - rewrite filter_cons_False by tauto.
    rewrite (process_line_blank st l E). cbn. apply IH.
  - rewrite filter_cons_True by done. cbn [run].
    rewrite process_line_strip. destruct (process_line st l); cbn; [apply IH | done].
Qed.

(** A line adds its header key, if it has one, and no other key. *)
Lemma process_line_dom (st st' : pstate) (raw : string) :
  process_line st raw = Ok st' ->
  dom (data st') = dom (data st) ∪ from_option singleton ∅ (header_key raw).
Proof.
  destruct (decide (blank raw)) as [Hb|Hb].
  { rewrite (process_line_blank st raw Hb). intros [= <-].
    unfold header_key. rewrite (blank_header_of raw Hb). cbn. set_solver. }
  unfold header_key. destruct (header_of raw) as [[k v]|] eqn:Hh; cbn.
  - rewrite (process_line_header st raw k v Hh).
    case_bool_decide; intros [= <-]; cbn; rewrite dom_insert_L; set_solver.
  - rewrite (process_line_text st raw Hb Hh).
    destruct (current_key st) as [k|]; [|intros [= <-]; set_solver].
    destruct (data st !! k) as [[s| | | |]|] eqn:Es; try (intros [= <-]; set_solver).
    destruct (truthy_key (Some k)); intros [= <-]; [|set_solver].
    cbn. rewrite dom_insert_lookup_L by (by rewrite Es). set_solver.
Qed.

Lemma run_dom (lines : list string) (st st' : pstate) :
  run st lines = Ok st' ->
  dom (data st') = dom (data st) ∪ list_to_set (omap header_key lines).
Proof.
  revert st. induction lines as [|l ls IH]; intros st; cbn [run].
  - intros [= <-]. cbn. set_solver.
  - destruct (process_line st l) as [st1|] eqn:E; cbn; [|done].
    intros H. rewrite (IH st1 H), (process_line_dom st st1 l E).
    cbn [omap list_omap]. destruct (header_key l); cbn; set_solver.
Qed.

(** A field outside the multi-line set keeps its value over lines that do
    not head it. *)
Lemma run_keeps_scalar_field (lines : list string) (st st' : pstate) (k : string) :
  key_open st -> k ∉ multiline_keys ->
  Forall (fun l => header_key l <> Some k) lines ->
  run st lines = Ok st' -> data st' !! k = data st !! k.
Proof.
  intros Hopen Hk. revert st Hopen.
  induction lines as [|l ls IH]; intros st Hopen Hall; cbn [run].
  - by intros [= <-].
  - apply Forall_cons in Hall as [Hl Hls].
    destruct (process_line st l) as [st1|] eqn:E; cbn; [|done].
    intros H. rewrite (IH st1 (process_line_key_open st st1 l Hopen E) Hls H).
    clear IH H Hls. revert E.
    destruct (decide (blank l)) as [Hb|Hb].
    { rewrite (process_line_blank st l Hb). by intros [= <-]. }
    unfold header_key in Hl. destruct (header_of l) as [[k' v]|] eqn:Hh.
    + rewrite (process_line_header st l k' v Hh). cbn in Hl.
      case_bool_decide; intros [= <-]; cbn; apply lookup_insert_ne; congruence.
    + rewrite (process_line_text st l Hb Hh). unfold key_open in Hopen.
      destruct (current_key st) as [c|]; [|by intros [= <-]].
      destruct Hopen as [Hc _].
      destruct (data st !! c) as [[s| | | |]|]; try by intros [= <-].
      destruct (truthy_key (Some c)); intros [= <-]; [|done].
      cbn. apply lookup_insert_ne. intros ->. done.
Qed.

Lemma join_space_snoc (a t : string) (ts : list string) :
  Str.join " " ((a +:+ " " +:+ t) :: ts) = a +:+ " " +:+ Str.join " " (t :: ts).
Proof.
  destruct ts as [|t' ts]; cbn [Str.join]; [done |].
  by rewrite !StrFacts.app_assoc.
Qed.

Lemma continuation_texts_cons (l : string) (ls : list string) :
  continuation_texts (l :: ls)
  = if decide (~ blank l /\ header_of l = None)
    then Str.strip l :: continuation_texts ls
    else continuation_texts ls.
Proof.
  unfold continuation_texts, blank. cbn [map]. rewrite filter_cons, header_of_strip.
  by repeat case_decide.
Qed.

(** An open multi-line field collects the text lines that follow, across
    headers of other kinds, until another multi-line field is opened. *)
Lemma run_collects (lines : list string) (st st' : pstate) (k acc : string) :
  k ∈ multiline_keys -> current_key st = Some k -> data st !! k = Some (VStr acc) ->
  Forall (fun l => ~ opens_field l) lines ->
  run st lines = Ok st' ->
  current_key st' = Some k
  /\ data st' !! k = Some (VStr (Str.join " " (acc :: continuation_texts lines))).
Proof.
  intros Hk. revert st acc.
  induction lines as [|l ls IH]; intros st acc Hc Hd Hall; cbn [run].
  - by intros [= <-].
  - apply Forall_cons in Hall as [Hl Hls].
    destruct (process_line st l) as [st1|] eqn:E; unfold bind; [|done].
    rewrite continuation_texts_cons.
    destruct (decide (blank l)) as [Hb|Hb].
    { rewrite (process_line_blank st l Hb) in E. injection E as <-.
      rewrite decide_False by tauto. by apply IH. }
    destruct (header_of l) as [[k' v]|] eqn:Hh.
    + rewrite (process_line_header st l k' v Hh) in E.
      rewrite decide_False by naive_solver.
      case_bool_decide as Hm.
      { exfalso. apply Hl. exists k'. unfold header_key. by rewrite Hh. }
      injection E as <-. apply IH; [done | | done].
      cbn. rewrite lookup_insert_ne; [done | intros ->; done].
    + rewrite (process_line_text st l Hb Hh), Hc, Hd in E.
      rewrite (multiline_key_nonempty k Hk) in E. injection E as <-.
      rewrite decide_True by done. intros H.
      destruct (IH (PState (<[k := VStr (acc +:+ " " +:+ Str.strip l)]> (data st))
                           (Some k))
                  (acc +:+ " " +:+ Str.strip l) eq_refl
                  (lookup_insert_eq _ _ _) Hls H) as [H1 H2].
      split; [done |]. by rewrite H2, join_space_snoc.
Qed.

Lemma rstrip_spaces (s : string) :
  (forall c, occurs c s -> Str.isspace c = true) -> Str.rstrip s = "".
Proof.
  induction s as [|c s IH]; intros H; [done |]. cbn.
  rewrite IH by (intros c' Hc'; apply H; by right).
  by rewrite (H c) by by left.
Qed.

Lemma parse_description_lines (s : string) :
  parse_description s
  = let* st := run initial (filter (fun l => l <> "")
                              (map Str.strip (Str.split Str.NL (Str.strip s)))) in
    Ok (data st).
Proof. unfold parse_description. by rewrite run_stripped. Qed.

(** ** The description parser: further properties *)

(** X2. A text that is empty or holds only whitespace parses to the empty
    dictionary. *)
Theorem whitespace_only_text_gives_empty_dict (s : string) :
  (forall c, occurs c s -> Str.isspace c = true) ->
  parse_description s = Ok ∅.
Proof.
  intros H. unfold parse_description, Str.strip.
  by rewrite (rstrip_spaces s H).
Qed.

Lemma whitespace_only_text_gives_empty_dict_witness :
  parse_description (" " +:+ Str.NL +:+ String "009" "  " +:+ Str.NL) = Ok ∅.
Proof.
  apply whitespace_only_text_gives_empty_dict.
  intros c Hc. cbn in Hc. by repeat (destruct Hc as [<-|Hc]; [by vm_compute |]).
Defined.

(** X3. Only the stripped, non-blank lines of the text matter: two texts
    with the same such lines parse alike, so indentation, trailing
    whitespace and empty lines never change the result. *)
Theorem layout_does_not_matter (s1 s2 : string) :
  filter (fun l => l <> "") (map Str.strip (Str.split Str.NL (Str.strip s1)))
  = filter (fun l => l <> "") (map Str.strip (Str.split Str.NL (Str.strip s2))) ->
  parse_description s1 = parse_description s2.
Proof. intros H. by rewrite !parse_description_lines, H. Qed.

Lemma layout_does_not_matter_witness :
  parse_description
    (Str.NL +:+ "    Name: Nile " +:+ Str.NL +:+ "  " +:+ Str.NL
     +:+ "        Description: A river" +:+ Str.NL +:+ "   cruise" +:+ Str.NL)
  = parse_description
      ("Name: Nile" +:+ Str.NL +:+ "Description: A river" +:+ Str.NL +:+ "cruise").
Proof. apply layout_does_not_matter. by vm_compute. Defined.

(** X4. The keys of the returned dictionary are exactly the stripped keys
    of the lines that contain [": "]: every such line creates its key, and
    no other line creates one. *)
Theorem keys_are_the_header_keys (s : string) :
  exists d, parse_description s = Ok d
    /\ forall k, k ∈ dom d
         <-> exists l, l ∈ Str.split Str.NL (Str.strip s) /\ header_key l = Some k.
Proof.
  unfold parse_description.
  destruct (run_total (Str.split Str.NL (Str.strip s)) initial) as [st Hst].
  rewrite Hst. exists (data st). split; [done |].
  intros k. rewrite (run_dom _ _ _ Hst). cbn.
  rewrite dom_empty_L, (left_id_L ∅ (∪)), elem_of_list_to_set, list_elem_of_omap.
  done.
Qed.

(** X5. A later header line overwrites an earlier one: for a key outside
    the multi-line set, the dictionary holds the coerced value of the last
    line that heads it. *)
Theorem last_header_line_wins (s : string) (l1 l2 : list string) (L k v : string) :
  Str.split Str.NL (Str.strip s) = l1 ++ L :: l2 ->
  header_of L = Some (k, v) ->
  k ∉ multiline_keys ->
  Forall (fun l => header_key l <> Some k) l2 ->
  exists d, parse_description s = Ok d
    /\ d !! k = Some (coerce_as_specified v).
Proof.
  intros Hs HL Hk Hl2. unfold parse_description. rewrite Hs, run_app.
  destruct (run_total l1 initial) as [st1 H1]. rewrite H1. cbn [bind run].
  pose proof (run_key_open l1 initial st1 I H1) as Hopen1.
  destruct (process_line st1 L) as [st2|] eqn:E2;
    [|by rewrite (process_line_header st1 L k v HL), bool_decide_eq_false_2 in E2].
  pose proof (process_line_key_open _ _ _ Hopen1 E2) as Hopen2.
  rewrite (process_line_header st1 L k v HL), bool_decide_eq_false_2 in E2 by done.
  injection E2 as <-. cbn [bind].
  destruct (run_total l2 (PState (<[k:=coerce_as_specified v]> (data st1))
                                 (current_key st1))) as [st3 H3].
  rewrite H3. cbn. exists (data st3). split; [done |].
  rewrite (run_keeps_scalar_field l2 _ _ k Hopen2 Hk Hl2 H3). cbn.
  apply lookup_insert_eq.
Qed.

Lemma last_header_line_wins_witness :
  exists d,
    parse_description ("Departure: From Rome on 2024-06-01" +:+ Str.NL
                       +:+ "Ship: Star" +:+ Str.NL
                       +:+ "Departure: 2024-06-02" +:+ Str.NL
                       +:+ "Notes: none")
    = Ok d
    /\ d !! "Departure" = Some (VStr "2024-06-02").
Proof.
  apply (last_header_line_wins _
           ["Departure: From Rome on 2024-06-01"; "Ship: Star"]
           ["Notes: none"] "Departure: 2024-06-02" "Departure" "2024-06-02");
    try by vm_compute.
  repeat constructor. by vm_compute.
Defined.

(** X6. A multi-line field collects, one space apart, the stripped text of
    every later non-blank line without [": "], up to the next line that opens
    a multi-line field; header lines of other fields in between do not end
    the collection. *)
Theorem multiline_field_collects_following_text
  (s : string) (l1 l2 : list string) (L k v : string) :
  Str.split Str.NL (Str.strip s) = l1 ++ L :: l2 ->
  header_of L = Some (k, v) ->
  k ∈ multiline_keys ->
  Forall (fun l => ~ opens_field l) l2 ->
  exists d, parse_description s = Ok d
    /\ d !! k = Some (VStr (Str.join " " (v :: continuation_texts l2))).
Proof.
  intros Hs HL Hk Hl2. unfold parse_description. rewrite Hs, run_app.
  destruct (run_total l1 initial) as [st1 H1]. rewrite H1. cbn [bind run].
  rewrite (process_line_header st1 L k v HL), bool_decide_eq_true_2 by done.
  cbn [bind].
  destruct (run_total l2 (PState (<[k:=VStr v]> (data st1)) (Some k))) as [st3 H3].
  rewrite H3. cbn. exists (data st3). split; [done |].
  by destruct (run_collects l2 (PState (<[k:=VStr v]> (data st1)) (Some k)) st3
                 k v Hk eq_refl (lookup_insert_eq _ _ _) Hl2 H3).
Qed.

Lemma multiline_field_collects_following_text_witness :
  exists d,
    parse_description ("Description: A river" +:+ Str.NL
                       +:+ "  cruise" +:+ Str.NL
                       +:+ "Rating: 5" +:+ Str.NL
                       +:+ "for two")
    = Ok d
    /\ d !! "Description" = Some (VStr "A river cruise for two").
Proof.
  apply (multiline_field_collects_following_text _ []
           ["  cruise"; "Rating: 5"; "for two"] "Description: A river"
           "Description" "A river"); try by vm_compute.
  repeat constructor; intros (k & Hk & Hm); vm_compute in Hk; simplify_eq.
  by vm_compute in Hm.
Defined.
